(** * dbglog: conditional debug output in front of Go's [log.Logger]

    A shallow embedding of [dbglog.go].  A [DbgLogger] embeds a
    [*log.Logger] and carries two private fields, [enabled] and [mask].
    Its methods have pointer receivers and return nothing, so each of them
    is embedded as a state transformer [DbgLogger -> DbgLogger].  The
    package [log] is an external collaborator: its three print operations
    are modelled by the record each of them leaves on the output sink. *)

From Stdlib Require Import String ZArith Bool List Lia.
Import ListNotations.
Local Open Scope Z_scope.

(** ** Go values *)

Module Go.

(** [uint64]: an integer in [0, 2^64).  The package only compares such
    values and combines them with [&], neither of which leaves the range,
    so no wrap-around arises in the code. *)
Definition uint64 := Z.

Definition uint64_range (z : Z) : Prop := 0 <= z < 2 ^ 64.

Definition max_uint64 : uint64 := 2 ^ 64 - 1.

(** A dynamic value passed through [v ...interface{}]. *)
Inductive value :=
| VNil
| VBool (b : bool)
| VInt (n : Z)
| VString (s : string).

End Go.

(** ** The part of package [log] that dbglog uses *)

Module Log.

(** One print operation of a [log.Logger], with the arguments it got.
    Each of [Printf], [Print] and [Println] formats its arguments and
    hands the line to the sink in a single write. *)
Inductive Call :=
| CPrintf (format : string) (v : list Go.value)
| CPrint (v : list Go.value)
| CPrintln (v : list Go.value).

(** The [io.Writer] behind a logger, as the writes it has received,
    oldest first. *)
Definition Writer := list Call.

Record Logger := mkLogger {
  out : Writer;
  prefix : string;
  flag : Z
}.

Definition New (out : Writer) (prefix : string) (flag : Z) : Logger :=
  mkLogger out prefix flag.

Definition Output (c : Call) (l : Logger) : Logger :=
  mkLogger (out l ++ [c]) (prefix l) (flag l).

Definition Printf (format : string) (v : list Go.value) : Logger -> Logger :=
  Output (CPrintf format v).

Definition Print (v : list Go.value) : Logger -> Logger :=
  Output (CPrint v).

Definition Println (v : list Go.value) : Logger -> Logger :=
  Output (CPrintln v).

End Log.

Import Go.
Import Log (Call, CPrintf, CPrint, CPrintln, Writer).

(** ** The receiver type *)

(** [type DbgLogger struct { *log.Logger; enabled bool; mask uint64 }].
    The embedded logger is the one [New] installs; it is never nil here. *)
Record DbgLogger := mkDbgLogger {
  Logger : Log.Logger;
  enabled : bool;
  mask : uint64
}.

(** A method body: a statement run on the receiver. *)
Definition stmt := DbgLogger -> DbgLogger.

(** The empty block [{}]. *)
Definition skip : stmt := fun d => d.

(** [s1; s2]. *)
Definition seq (s1 s2 : stmt) : stmt := fun d => s2 (s1 d).

(** [if cond { body }], without an else branch. *)
Definition when (cond : DbgLogger -> bool) (body : stmt) : stmt :=
  fun d => if cond d then body d else d.

Notation "s1 ;; s2" := (seq s1 s2) (at level 61, right associativity).

(** Field assignments. *)
Definition set_Logger (l : Log.Logger) : stmt :=
  fun d => mkDbgLogger l (enabled d) (mask d).

Definition set_enabled (b : bool) : stmt :=
  fun d => mkDbgLogger (Logger d) b (mask d).

Definition set_mask (m : uint64) : stmt :=
  fun d => mkDbgLogger (Logger d) (enabled d) m.

(** The methods of the embedded [*log.Logger], promoted to [DbgLogger]:
    [d.Printf(...)] is [d.Logger.Printf(...)]. *)
Definition Printf (format : string) (v : list value) : stmt :=
  fun d => set_Logger (Log.Printf format v (Logger d)) d.

Definition Print (v : list value) : stmt :=
  fun d => set_Logger (Log.Print v (Logger d)) d.

Definition Println (v : list value) : stmt :=
  fun d => set_Logger (Log.Println v (Logger d)) d.

(** ** The methods of dbglog.go *)

Definition Debugf (format : string) (v : list value) : stmt :=
  when enabled (Printf format v).

(** The branch on [d.enabled] is empty; the print follows it. *)
Definition Debug (v : list value) : stmt :=
  when enabled skip ;;
  Print v.

Definition Debugln (v : list value) : stmt :=
  when enabled (Println v).

Definition Enable : stmt := set_enabled true.

Definition Disable : stmt := set_enabled false.

Definition SetMask (mask : uint64) : stmt := set_mask mask.

(** [d.enabled == true && bit != 0 && bit & d.mask == bit].  In Go [&]
    binds tighter than [==], so the last conjunct compares [bit & d.mask]
    with [bit]. *)
Definition mask_cond (bit : uint64) (d : DbgLogger) : bool :=
  Bool.eqb (enabled d) true && negb (bit =? 0) && (Z.land bit (mask d) =? bit).

Definition DebugfM (bit : uint64) (format : string) (v : list value) : stmt :=
  when (mask_cond bit) (Printf format v).

Definition DebugM (bit : uint64) (format : string) (v : list value) : stmt :=
  when (mask_cond bit) (Print v).

Definition DebuglnM (bit : uint64) (format : string) (v : list value) : stmt :=
  when (mask_cond bit) (Println v).

(** [d := &DbgLogger{}] zeroes [enabled] and [mask]; the logger is then
    set to [log.New(out, prefix, flag)]. *)
Definition New (out : Writer) (prefix : string) (flag : Z) : DbgLogger :=
  mkDbgLogger (Log.New out prefix flag) false 0.

(** ** Calls and call sequences *)

Inductive Method :=
| MDebugf (format : string) (v : list value)
| MDebug (v : list value)
| MDebugln (v : list value)
| MEnable
| MDisable
| MSetMask (mask : uint64)
| MDebugfM (bit : uint64) (format : string) (v : list value)
| MDebugM (bit : uint64) (format : string) (v : list value)
| MDebuglnM (bit : uint64) (format : string) (v : list value).

Definition call (m : Method) : stmt :=
  match m with
  | MDebugf format v => Debugf format v
  | MDebug v => Debug v
  | MDebugln v => Debugln v
  | MEnable => Enable
  | MDisable => Disable
  | MSetMask mask => SetMask mask
  | MDebugfM bit format v => DebugfM bit format v
  | MDebugM bit format v => DebugM bit format v
  | MDebuglnM bit format v => DebuglnM bit format v
  end.

Definition run (ms : list Method) : stmt :=
  fun d => fold_left (fun d m => call m d) ms d.

(** The two switches, as a type of their own. *)
Inductive Toggle := TEnable | TDisable.

Definition toggle_method (t : Toggle) : Method :=
  match t with
  | TEnable => MEnable
  | TDisable => MDisable
  end.

Definition toggle_state (t : Toggle) : bool :=
  match t with
  | TEnable => true
  | TDisable => false
  end.

(** ** Observing the sink *)

(** Everything the sink of [d] has received. *)
Definition written (d : DbgLogger) : Writer := Log.out (Logger d).

(** The print operations a statement performs when run on [d]: what the
    sink holds afterwards, beyond what it held before. *)
Definition calls_made (s : stmt) (d : DbgLogger) : list Call :=
  skipn (length (written d)) (written (s d)).

(** [s] run on [d] invokes the print operation [c], once, and no other. *)
Definition invokes (s : stmt) (d : DbgLogger) (c : Call) : Prop :=
  calls_made s d = [c].

(** [s] run on [d] is a no-op: the receiver, sink included, is as before. *)
Definition noop (s : stmt) (d : DbgLogger) : Prop :=
  s d = d.

(** ** Kinds of calls *)

(** The calls that assign a field: [Enable], [Disable] and [SetMask]. *)
Definition is_setter (m : Method) : bool :=
  match m with
  | MEnable | MDisable | MSetMask _ => true
  | _ => false
  end.

Definition is_Enable (m : Method) : bool :=
  match m with
  | MEnable => true
  | _ => false
  end.

Definition is_toggle (m : Method) : bool :=
  match m with
  | MEnable | MDisable => true
  | _ => false
  end.

Definition is_SetMask (m : Method) : bool :=
  match m with
  | MSetMask _ => true
  | _ => false
  end.

(** The [Print] calls that the [Debug] calls of a sequence ask for, in
    order. *)
Definition Debug_prints (ms : list Method) : list Call :=
  flat_map (fun m => match m with
                     | MDebug v => [CPrint v]
                     | _ => []
                     end) ms.

(** ** Sanity checks on the header comment's example *)

Example example_prints :
  calls_made (DebugfM 1 "debug" [])
             (SetMask 1 (Enable (New [] "myapp " 3)))
  = [CPrintf "debug" []].
Proof. reflexivity. Qed.

Example example_does_not_print :
  calls_made (DebugfM 2 "debug" [])
             (SetMask 1 (Enable (New [] "myapp " 3)))
  = [].
Proof. reflexivity. Qed.

Example example_partial_overlap_does_not_print :
  calls_made (DebugfM 3 "c" []) (SetMask 1 (Enable (New [] "myapp " 3))) = [].
Proof. reflexivity. Qed.

(** ** [&] stays within [uint64] *)

Lemma land_uint64_range (a b : Z) :
  uint64_range a -> uint64_range (Z.land a b).
Proof.
  unfold uint64_range. intros Ha.
  rewrite <- (Z.mod_small a (2 ^ 64)) by exact Ha.
  rewrite <- Z.land_ones by lia.
  rewrite <- Z.land_assoc, (Z.land_comm (Z.ones 64) b), Z.land_assoc.
  rewrite Z.land_ones by lia.
  apply Z.mod_pos_bound. lia.
Qed.

(** ** The sink only grows *)

Lemma skipn_length_app {A} (l extra : list A) :
  skipn (length l) (l ++ extra) = extra.
Proof. induction l as [|a l IH]; simpl; auto. Qed.

Lemma app_one_neq {A} (l : list A) (a : A) : l ++ [a] <> l.
Proof.
  intro H. apply (f_equal (@length A)) in H.
  rewrite length_app in H. simpl in H. lia.
Qed.

Lemma written_Output (c : Call) (d : DbgLogger) :
  written (set_Logger (Log.Output c (Logger d)) d) = written d ++ [c].
Proof. reflexivity. Qed.

Lemma Output_changes (c : Call) (d : DbgLogger) :
  set_Logger (Log.Output c (Logger d)) d <> d.
Proof.
  intro H. apply (f_equal written) in H. rewrite written_Output in H.
  exact (app_one_neq _ _ H).
Qed.

(** A guarded print: what it writes and when it leaves the receiver alone. *)
Lemma when_Output_calls (cond : DbgLogger -> bool) (c : Call) (d : DbgLogger) :
  calls_made (when cond (fun d => set_Logger (Log.Output c (Logger d)) d)) d
  = if cond d then [c] else [].
Proof.
  unfold calls_made, when. destruct (cond d).
  - rewrite written_Output. apply skipn_length_app.
  - apply skipn_all.
Qed.

Lemma when_Output_invokes (cond : DbgLogger -> bool) (c : Call) (d : DbgLogger) :
  invokes (when cond (fun d => set_Logger (Log.Output c (Logger d)) d)) d c
  <-> cond d = true.
Proof.
  unfold invokes. rewrite when_Output_calls.
  destruct (cond d); split; intros H; try reflexivity; discriminate.
Qed.

Lemma when_Output_noop (cond : DbgLogger -> bool) (c : Call) (d : DbgLogger) :
  noop (when cond (fun d => set_Logger (Log.Output c (Logger d)) d)) d
  <-> cond d = false.
Proof.
  unfold noop, when. destruct (cond d); split; intros H;
    try reflexivity; try discriminate.
  exfalso. exact (Output_changes _ _ H).
Qed.

(** The condition of the masked methods, read as a proposition. *)
Lemma mask_cond_true (bit : uint64) (d : DbgLogger) :
  mask_cond bit d = true
  <-> enabled d = true /\ bit <> 0 /\ Z.land bit (mask d) = bit.
Proof.
  unfold mask_cond. rewrite !andb_true_iff, negb_true_iff.
  rewrite Z.eqb_neq, Z.eqb_eq.
  destruct (enabled d); simpl; intuition congruence.
Qed.

Lemma mask_cond_false (bit : uint64) (d : DbgLogger) :
  mask_cond bit d = false
  <-> ~ (enabled d = true /\ bit <> 0 /\ Z.land bit (mask d) = bit).
Proof.
  rewrite <- mask_cond_true. destruct (mask_cond bit d); split; intros H;
    try reflexivity; try discriminate; congruence.
Qed.

(** Every method leaves on the sink what was there, followed by its own calls. *)
Lemma written_call (m : Method) (d : DbgLogger) :
  written (call m d) = written d ++ calls_made (call m) d.
Proof.
  unfold calls_made.
  assert (E : forall (cond : DbgLogger -> bool) c,
    written (when cond (fun d => set_Logger (Log.Output c (Logger d)) d) d)
    = written d ++ skipn (length (written d))
        (written (when cond (fun d => set_Logger (Log.Output c (Logger d)) d) d))).
  { intros cond c. unfold when. destruct (cond d).
    - rewrite written_Output, skipn_length_app. reflexivity.
    - rewrite skipn_all, app_nil_r. reflexivity. }
  destruct m; simpl; try apply E.
  - unfold Debug, seq, when, skip.
    change (written (Print v (if enabled d then d else d)))
      with (written (if enabled d then d else d) ++ [CPrint v]).
    destruct (enabled d); rewrite skipn_length_app; reflexivity.
  - unfold Enable, set_enabled, written. simpl.
    rewrite skipn_all, app_nil_r. reflexivity.
  - unfold Disable, set_enabled, written. simpl.
    rewrite skipn_all, app_nil_r. reflexivity.
  - unfold SetMask, set_mask, written. simpl.
    rewrite skipn_all, app_nil_r. reflexivity.
Qed.

(** ** The masked methods *)

(** C1: a masked debug method ([DebugfM], [DebugM], [DebuglnM]) called with
    [bit] invokes the underlying print operation if and only if [enabled]
    is true, [bit] is nonzero and [bit & mask] equals [bit]; it is a no-op
    exactly when that condition fails. *)
Theorem masked_gate_iff (d : DbgLogger) (bit : uint64) (format : string)
    (v : list value) :
  let gate := enabled d = true /\ bit <> 0 /\ Z.land bit (mask d) = bit in
  (invokes (DebugfM bit format v) d (CPrintf format v) <-> gate) /\
  (invokes (DebugM bit format v) d (CPrint v) <-> gate) /\
  (invokes (DebuglnM bit format v) d (CPrintln v) <-> gate) /\
  (noop (DebugfM bit format v) d <-> ~ gate) /\
  (noop (DebugM bit format v) d <-> ~ gate) /\
  (noop (DebuglnM bit format v) d <-> ~ gate).
Proof.
  intro gate. subst gate.
  unfold DebugfM, DebugM, DebuglnM, Printf, Print, Println,
    Log.Printf, Log.Print, Log.Println.
  rewrite !when_Output_invokes, !when_Output_noop.
  rewrite mask_cond_true, mask_cond_false.
  tauto.
Qed.

(** C6: with [bit == 0] the masked methods never invoke the underlying
    print operation, whatever [enabled] and [mask] are (an all-ones mask
    included): nothing is written and the receiver is unchanged. *)
Theorem masked_bit_zero_silent (d : DbgLogger) (format : string)
    (v : list value) :
  calls_made (DebugfM 0 format v) d = [] /\
  calls_made (DebugM 0 format v) d = [] /\
  calls_made (DebuglnM 0 format v) d = [] /\
  DebugfM 0 format v d = d /\
  DebugM 0 format v d = d /\
  DebuglnM 0 format v d = d /\
  calls_made (DebugfM 0 format v) (SetMask max_uint64 (Enable d)) = [].
Proof.
  assert (Z0 : forall d', mask_cond 0 d' = false).
  { intro d'. unfold mask_cond. destruct (enabled d'); reflexivity. }
  unfold DebugfM, DebugM, DebuglnM, Printf, Print, Println,
    Log.Printf, Log.Print, Log.Println.
  rewrite !when_Output_calls. unfold when. rewrite !Z0. repeat split.
Qed.

(** ** The unmasked methods *)

(** C2: [Debugf] invokes the formatted-print operation if and only if
    [enabled] is true, and [Debugln] the print-with-newline operation if
    and only if [enabled] is true; with [enabled] false both are no-ops. *)
Theorem Debugf_Debugln_iff_enabled (d : DbgLogger) (format : string)
    (v : list value) :
  (invokes (Debugf format v) d (CPrintf format v) <-> enabled d = true) /\
  (invokes (Debugln v) d (CPrintln v) <-> enabled d = true) /\
  (noop (Debugf format v) d <-> enabled d = false) /\
  (noop (Debugln v) d <-> enabled d = false) /\
  (calls_made (Debugf format v) d = [] <-> enabled d = false) /\
  (calls_made (Debugln v) d = [] <-> enabled d = false).
Proof.
  unfold Debugf, Debugln, Printf, Println, Log.Printf, Log.Println.
  rewrite !when_Output_invokes, !when_Output_noop, !when_Output_calls.
  destruct (enabled d); repeat split; intros; try reflexivity; discriminate.
Qed.

(** C3: [Debug] is documented to print only when debug is enabled and to
    be a no-op otherwise.  The code departs from this: evaluated on a
    fresh logger, whose [enabled] is false, [Debug] hands its values to the
    print operation of the base logger, where [Debugf] and [Debugln] on the
    same logger write nothing. *)
Example Debug_disabled_still_prints :
  let d := New [] "myapp " 0 in
  enabled d = false /\
  calls_made (Debug [VString "y"]) d = [CPrint [VString "y"]] /\
  Debug [VString "y"] d <> d /\
  calls_made (Debugf "y" []) d = [] /\
  calls_made (Debugln [VString "y"]) d = [].
Proof.
  cbv zeta. split; [reflexivity|]. split; [reflexivity|].
  split; [intro H; discriminate H|]. split; reflexivity.
Qed.

(** C4: [Debug] as written emits unconditionally: in every state,
    [enabled == false] included, a call invokes the underlying print
    operation exactly once, since the branch on [enabled] is empty and
    the print follows it. *)
Theorem Debug_unconditional (d : DbgLogger) (v : list value) :
  invokes (Debug v) d (CPrint v) /\
  Debug v d = Print v d /\
  written (Debug v d) = written d ++ [CPrint v] /\
  invokes (Debug v) (Disable d) (CPrint v).
Proof.
  assert (E : forall d', Debug v d' = Print v d').
  { intro d'. unfold Debug, seq, when, skip. destruct (enabled d'); reflexivity. }
  assert (I : forall d', invokes (Debug v) d' (CPrint v)).
  { intro d'. unfold invokes, calls_made. rewrite E.
    unfold Print, Log.Print. rewrite written_Output. apply skipn_length_app. }
  repeat split; auto.
  rewrite E. reflexivity.
Qed.

(** ** Construction *)

(** C5: for every sink, prefix and flag, [New] returns a logger with
    [enabled == false] and [mask == 0], so a [Debugf] on the fresh logger
    writes nothing. *)
Theorem New_disabled_and_silent (out : Writer) (prefix : string) (flag : Z)
    (format : string) (v : list value) :
  enabled (New out prefix flag) = false /\
  mask (New out prefix flag) = 0 /\
  written (New out prefix flag) = out /\
  calls_made (Debugf format v) (New out prefix flag) = [] /\
  written (Debugf format v (New out prefix flag)) = out /\
  Debugf format v (New out prefix flag) = New out prefix flag.
Proof.
  repeat split. unfold calls_made. simpl. apply skipn_all.
Qed.

(** Every pair of an [enabled] value and a mask is a state some logger
    reaches from [New] through the setters. *)
Lemma state_reachable (out : Writer) (prefix : string) (flag : Z)
    (b : bool) (m : uint64) :
  SetMask m ((if b then Enable else Disable) (New out prefix flag))
  = mkDbgLogger (Log.New out prefix flag) b m.
Proof. destruct b; reflexivity. Qed.

(** ** The switches *)

Lemma run_snoc (ms : list Method) (m : Method) (d : DbgLogger) :
  run (ms ++ [m]) d = call m (run ms d).
Proof. unfold run. rewrite fold_left_app. reflexivity. Qed.

Lemma enabled_toggle (t : Toggle) (d : DbgLogger) :
  enabled (call (toggle_method t) d) = toggle_state t.
Proof. destruct t; reflexivity. Qed.

(** C7: [Enable] and [Disable] are idempotent, and after any finite
    sequence of [Enable]/[Disable] calls [enabled] is what the last call
    set (true after [Enable], false after [Disable]), so the next
    [Debugf] or [Debugln] emits iff the last call was [Enable]. *)
Theorem Enable_Disable_last_call_wins :
  (forall d, Enable (Enable d) = Enable d) /\
  (forall d, Disable (Disable d) = Disable d) /\
  (forall (ts : list Toggle) (t : Toggle) (d : DbgLogger),
     enabled (run (map toggle_method (ts ++ [t])) d) = toggle_state t) /\
  (forall (ts : list Toggle) (t : Toggle) (d : DbgLogger)
          (format : string) (v : list value),
     let d' := run (map toggle_method (ts ++ [t])) d in
     (invokes (Debugf format v) d' (CPrintf format v) <-> t = TEnable) /\
     (invokes (Debugln v) d' (CPrintln v) <-> t = TEnable) /\
     (noop (Debugf format v) d' <-> t = TDisable) /\
     (noop (Debugln v) d' <-> t = TDisable)).
Proof.
  assert (L : forall ts t d,
    enabled (run (map toggle_method (ts ++ [t])) d) = toggle_state t).
  { intros ts t d. rewrite map_app. simpl. rewrite run_snoc.
    apply enabled_toggle. }
  split; [reflexivity|]. split; [reflexivity|]. split; [exact L|].
  intros ts t d format v d'.
  unfold Debugf, Debugln, Printf, Println, Log.Printf, Log.Println.
  rewrite !when_Output_invokes, !when_Output_noop.
  subst d'. rewrite L.
  destruct t; simpl; repeat split; intros; congruence.
Qed.

(** ** What each method leaves alone *)

(** C8: each operation touches only its own field: [Enable] and [Disable]
    leave [mask] (and the base logger) unchanged; [SetMask] sets [mask] to
    exactly the given value and leaves [enabled] (and the base logger)
    unchanged; every [Debugf], [Debug], [Debugln], [DebugfM], [DebugM] and
    [DebuglnM] call leaves both [enabled] and [mask] unchanged. *)
Theorem methods_frame (d : DbgLogger) (m bit : uint64) (format : string)
    (v : list value) :
  (mask (Enable d) = mask d /\ Logger (Enable d) = Logger d) /\
  (mask (Disable d) = mask d /\ Logger (Disable d) = Logger d) /\
  (mask (SetMask m d) = m /\ enabled (SetMask m d) = enabled d /\
   Logger (SetMask m d) = Logger d) /\
  (enabled (Debugf format v d) = enabled d /\ mask (Debugf format v d) = mask d) /\
  (enabled (Debug v d) = enabled d /\ mask (Debug v d) = mask d) /\
  (enabled (Debugln v d) = enabled d /\ mask (Debugln v d) = mask d) /\
  (enabled (DebugfM bit format v d) = enabled d /\
   mask (DebugfM bit format v d) = mask d) /\
  (enabled (DebugM bit format v d) = enabled d /\
   mask (DebugM bit format v d) = mask d) /\
  (enabled (DebuglnM bit format v d) = enabled d /\
   mask (DebuglnM bit format v d) = mask d).
Proof.
  unfold Debugf, Debug, Debugln, DebugfM, DebugM, DebuglnM, seq, when, skip.
  destruct (mask_cond bit d), (enabled d) eqn:E; simpl; rewrite ?E;
    repeat split; reflexivity.
Qed.

(** ** The unused format parameter *)

(** C9: the [format] parameter of [DebugM] and [DebuglnM] has no effect:
    two calls that differ only in it make the same calls on the base
    logger and leave the same state, as it is never handed to the print
    operation. *)
Theorem DebugM_DebuglnM_format_irrelevant (d : DbgLogger) (bit : uint64)
    (format1 format2 : string) (v : list value) :
  DebugM bit format1 v d = DebugM bit format2 v d /\
  DebuglnM bit format1 v d = DebuglnM bit format2 v d /\
  calls_made (DebugM bit format1 v) d = calls_made (DebugM bit format2 v) d /\
  calls_made (DebuglnM bit format1 v) d = calls_made (DebuglnM bit format2 v) d.
Proof. repeat split. Qed.

(** ** Monotonicity in the mask *)

Lemma land_widen (bit m m' : Z) :
  Z.land m m' = m -> Z.land bit m = bit -> Z.land bit m' = bit.
Proof.
  intros Hm Hb. rewrite <- Hb at 1.
  rewrite <- Z.land_assoc, Hm. exact Hb.
Qed.

Lemma mask_cond_widen (d : DbgLogger) (bit m m' : uint64) :
  Z.land m m' = m ->
  mask_cond bit (SetMask m d) = true -> mask_cond bit (SetMask m' d) = true.
Proof.
  intros Hm. rewrite !mask_cond_true. simpl.
  intros (He & Hz & Hb). repeat split; auto.
  exact (land_widen _ _ _ Hm Hb).
Qed.

(** C10: the masked gate is monotone in the mask: when every bit of [m]
    is also set in [m'] ([m & m' == m]), a [DebugfM], [DebugM] or
    [DebuglnM] call with a nonzero [bit] that emits under mask [m] emits
    under mask [m'] too, whatever the [enabled] state. *)
Theorem masked_gate_monotone (d : DbgLogger) (bit m m' : uint64)
    (format : string) (v : list value) :
  bit <> 0 ->
  Z.land m m' = m ->
  (invokes (DebugfM bit format v) (SetMask m d) (CPrintf format v) ->
   invokes (DebugfM bit format v) (SetMask m' d) (CPrintf format v)) /\
  (invokes (DebugM bit format v) (SetMask m d) (CPrint v) ->
   invokes (DebugM bit format v) (SetMask m' d) (CPrint v)) /\
  (invokes (DebuglnM bit format v) (SetMask m d) (CPrintln v) ->
   invokes (DebuglnM bit format v) (SetMask m' d) (CPrintln v)).
Proof.
  intros _ Hm.
  unfold DebugfM, DebugM, DebuglnM, Printf, Print, Println,
    Log.Printf, Log.Print, Log.Println.
  rewrite !when_Output_invokes.
  repeat split; apply mask_cond_widen; exact Hm.
Qed.

Lemma masked_gate_monotone_witness :
  let d := Enable (New [] "myapp " 0) in
  1 <> 0 /\
  Z.land 1 3 = 1 /\
  invokes (DebugfM 1 "a" []) (SetMask 1 d) (CPrintf "a" []) /\
  invokes (DebugfM 1 "a" []) (SetMask 3 d) (CPrintf "a" []).
Proof.
  cbv zeta.
  split; [discriminate|]. split; [reflexivity|]. split; [reflexivity|].
  apply (masked_gate_monotone (Enable (New [] "myapp " 0)) 1 1 3 "a" []).
  - discriminate.
  - reflexivity.
  - reflexivity.
Defined.

(** * Further properties of the methods *)

(** ** Call sequences and the sink *)

Lemma calls_made_of (s : stmt) (d : DbgLogger) (extra : list Call) :
  written (s d) = written d ++ extra -> calls_made s d = extra.
Proof. unfold calls_made. intros ->. apply skipn_length_app. Qed.

Lemma written_run (ms : list Method) (d : DbgLogger) :
  written (run ms d) = written d ++ calls_made (run ms) d.
Proof.
  revert d. induction ms as [|m ms IH]; intro d.
  - unfold calls_made, run. simpl. rewrite skipn_all, app_nil_r. reflexivity.
  - assert (W : written (run (m :: ms) d)
                = written d ++ calls_made (call m) d
                            ++ calls_made (run ms) (call m d)).
    { change (run (m :: ms) d) with (run ms (call m d)).
      rewrite IH, written_call, <- app_assoc. reflexivity. }
    rewrite (calls_made_of _ _ _ W). exact W.
Qed.

Lemma calls_made_run_cons (m : Method) (ms : list Method) (d : DbgLogger) :
  calls_made (run (m :: ms)) d
  = calls_made (call m) d ++ calls_made (run ms) (call m d).
Proof.
  apply calls_made_of.
  change (run (m :: ms) d) with (run ms (call m d)).
  rewrite written_run, written_call, <- app_assoc. reflexivity.
Qed.

Lemma calls_made_run_nil (d : DbgLogger) : calls_made (run []) d = [].
Proof. unfold calls_made, run. simpl. apply skipn_all. Qed.

Lemma run_app (ms1 ms2 : list Method) (d : DbgLogger) :
  run (ms1 ++ ms2) d = run ms2 (run ms1 d).
Proof. unfold run. apply fold_left_app. Qed.

(** What one call prints, and what it does to the two fields. *)
Lemma calls_made_call (m : Method) (d : DbgLogger) :
  calls_made (call m) d =
  match m with
  | MDebugf format v => if enabled d then [CPrintf format v] else []
  | MDebug v => [CPrint v]
  | MDebugln v => if enabled d then [CPrintln v] else []
  | MEnable | MDisable | MSetMask _ => []
  | MDebugfM bit format v => if mask_cond bit d then [CPrintf format v] else []
  | MDebugM bit _ v => if mask_cond bit d then [CPrint v] else []
  | MDebuglnM bit _ v => if mask_cond bit d then [CPrintln v] else []
  end.
Proof.
  destruct m; simpl; try apply when_Output_calls;
    try (unfold calls_made; apply skipn_all).
  apply calls_made_of. unfold Debug, seq, when, skip, Print, Log.Print.
  destruct (enabled d); apply written_Output.
Qed.

Lemma enabled_call (m : Method) (d : DbgLogger) :
  enabled (call m d) =
  match m with
  | MEnable => true
  | MDisable => false
  | _ => enabled d
  end.
Proof.
  destruct m; simpl; try reflexivity;
    unfold Debugf, Debug, Debugln, DebugfM, DebugM, DebuglnM, seq, when, skip;
    try destruct (mask_cond bit d); destruct (enabled d) eqn:E; simpl;
    rewrite ?E; reflexivity.
Qed.

Lemma mask_call (m : Method) (d : DbgLogger) :
  mask (call m d) =
  match m with
  | MSetMask k => k
  | _ => mask d
  end.
Proof.
  destruct m; simpl; try reflexivity;
    unfold Debugf, Debug, Debugln, DebugfM, DebugM, DebuglnM, seq, when, skip;
    try destruct (mask_cond bit d); destruct (enabled d) eqn:E; simpl;
    reflexivity.
Qed.

Lemma config_call (m : Method) (d : DbgLogger) :
  Log.prefix (Logger (call m d)) = Log.prefix (Logger d) /\
  Log.flag (Logger (call m d)) = Log.flag (Logger d).
Proof.
  destruct m; simpl;
    unfold Debugf, Debug, Debugln, DebugfM, DebugM, DebuglnM, seq, when, skip;
    try destruct (mask_cond bit d); destruct (enabled d) eqn:E; simpl;
    split; reflexivity.
Qed.

Lemma mask_cond_fields (bit : uint64) (d1 d2 : DbgLogger) :
  enabled d1 = enabled d2 -> mask d1 = mask d2 ->
  mask_cond bit d1 = mask_cond bit d2.
Proof. unfold mask_cond. intros -> ->. reflexivity. Qed.

Lemma calls_made_call_le1 (m : Method) (d : DbgLogger) :
  (length (calls_made (call m) d) <= 1)%nat.
Proof.
  rewrite calls_made_call.
  destruct m; simpl; try destruct (enabled d); try destruct (mask_cond bit d);
    simpl; lia.
Qed.

(** X1: whatever sequence of methods is called, the sink is only appended
    to: it holds what it held before, followed by the calls the sequence
    made, at most one per method call; the prefix and the flags of the
    base logger are never changed. *)
Theorem sink_append_only (ms : list Method) (d : DbgLogger) :
  written (run ms d) = written d ++ calls_made (run ms) d /\
  (length (calls_made (run ms) d) <= length ms)%nat /\
  Log.prefix (Logger (run ms d)) = Log.prefix (Logger d) /\
  Log.flag (Logger (run ms d)) = Log.flag (Logger d).
Proof.
  split; [apply written_run|].
  revert d. induction ms as [|m ms IH]; intro d.
  - rewrite calls_made_run_nil. simpl. repeat split. lia.
  - rewrite calls_made_run_cons, length_app.
    change (run (m :: ms) d) with (run ms (call m d)).
    destruct (IH (call m d)) as (Hl & Hp & Hf).
    destruct (config_call m d) as (Hp' & Hf').
    pose proof (calls_made_call_le1 m d).
    simpl. repeat split; try congruence. lia.
Qed.

(** The two fields and the output of a sequence are functions of the two
    fields it starts from. *)
Lemma run_fields (ms : list Method) (d1 d2 : DbgLogger) :
  enabled d1 = enabled d2 -> mask d1 = mask d2 ->
  calls_made (run ms) d1 = calls_made (run ms) d2 /\
  enabled (run ms d1) = enabled (run ms d2) /\
  mask (run ms d1) = mask (run ms d2).
Proof.
  revert d1 d2. induction ms as [|m ms IH]; intros d1 d2 He Hm.
  - rewrite !calls_made_run_nil. auto.
  - rewrite !calls_made_run_cons.
    change (run (m :: ms) d1) with (run ms (call m d1)).
    change (run (m :: ms) d2) with (run ms (call m d2)).
    assert (He' : enabled (call m d1) = enabled (call m d2)).
    { rewrite !enabled_call. destruct m; auto. }
    assert (Hm' : mask (call m d1) = mask (call m d2)).
    { rewrite !mask_call. destruct m; auto. }
    destruct (IH _ _ He' Hm') as (Hc & He'' & Hm'').
    rewrite Hc, !calls_made_call.
    repeat split; auto. f_equal.
    destruct m; rewrite ?He, ?(mask_cond_fields _ _ _ He Hm); reflexivity.
Qed.

(** X2: which calls reach the base logger depends on [enabled] and [mask]
    alone: run from two loggers that agree on these two fields (whatever
    their sinks, prefixes and flags), a sequence of method calls makes the
    same print calls and ends with the same [enabled] and [mask]. *)
Theorem output_depends_on_fields_only (ms : list Method) (d1 d2 : DbgLogger) :
  enabled d1 = enabled d2 ->
  mask d1 = mask d2 ->
  calls_made (run ms) d1 = calls_made (run ms) d2 /\
  enabled (run ms d1) = enabled (run ms d2) /\
  mask (run ms d1) = mask (run ms d2).
Proof. apply run_fields. Qed.

Lemma output_depends_on_fields_only_witness :
  let ms := [MDebugf "a" []; MEnable; MSetMask 5; MDebugfM 4 "b" [];
             MDebug [VInt 1]; MDisable; MDebugln []] in
  let d1 := New [] "one " 0 in
  let d2 := New [CPrint [VString "earlier"]] "two " 3 in
  enabled d1 = enabled d2 /\
  mask d1 = mask d2 /\
  calls_made (run ms) d1 = calls_made (run ms) d2 /\
  enabled (run ms d1) = enabled (run ms d2) /\
  mask (run ms d1) = mask (run ms d2).
Proof.
  cbv zeta.
  split; [reflexivity|]. split; [reflexivity|].
  apply (output_depends_on_fields_only
           [MDebugf "a" []; MEnable; MSetMask 5; MDebugfM 4 "b" [];
            MDebug [VInt 1]; MDisable; MDebugln []]
           (New [] "one " 0)
           (New [CPrint [VString "earlier"]] "two " 3));
    reflexivity.
Defined.

(** X3: the debug methods never touch [enabled] or [mask], also over
    whole sequences: after any sequence of calls the two fields are what
    its [Enable], [Disable] and [SetMask] calls alone would have left,
    and those setter calls by themselves write nothing. *)
Theorem fields_follow_setters (ms : list Method) (d : DbgLogger) :
  enabled (run ms d) = enabled (run (filter is_setter ms) d) /\
  mask (run ms d) = mask (run (filter is_setter ms) d) /\
  calls_made (run (filter is_setter ms)) d = [].
Proof.
  revert d. induction ms as [|m ms IH]; intro d.
  - simpl. rewrite calls_made_run_nil. auto.
  - change (run (m :: ms) d) with (run ms (call m d)).
    destruct (IH (call m d)) as (He & Hm & Hc).
    destruct (is_setter m) eqn:S; simpl; rewrite S.
    + change (run (m :: filter is_setter ms) d)
        with (run (filter is_setter ms) (call m d)).
      rewrite calls_made_run_cons, Hc, calls_made_call.
      destruct m; try discriminate; auto.
    + assert (Fe : enabled (call m d) = enabled d).
      { rewrite enabled_call. destruct m; try discriminate; reflexivity. }
      assert (Fm : mask (call m d) = mask d).
      { rewrite mask_call. destruct m; try discriminate; reflexivity. }
      destruct (run_fields (filter is_setter ms) _ _ Fe Fm) as (Rc & Re & Rm).
      rewrite He, Hm, Re, Rm, <- Rc. auto.
Qed.

(** X4: a logger that is disabled and is never enabled prints exactly what
    its [Debug] calls ask for, in order, and nothing else: every other
    method of such a sequence is silent, and the logger stays disabled. *)
Theorem never_enabled_output (ms : list Method) (d : DbgLogger) :
  enabled d = false ->
  forallb (fun m => negb (is_Enable m)) ms = true ->
  calls_made (run ms) d = Debug_prints ms /\
  enabled (run ms d) = false.
Proof.
  revert d. induction ms as [|m ms IH]; intros d He Hn.
  - rewrite calls_made_run_nil. auto.
  - simpl in Hn. apply andb_true_iff in Hn. destruct Hn as (Hm & Hn).
    change (run (m :: ms) d) with (run ms (call m d)).
    assert (He' : enabled (call m d) = false).
    { rewrite enabled_call. destruct m; try discriminate; auto. }
    destruct (IH _ He' Hn) as (Hc & Hf).
    rewrite calls_made_run_cons, Hc, calls_made_call. split; [|exact Hf].
    assert (Mc : forall bit, mask_cond bit d = false).
    { intro bit. unfold mask_cond. rewrite He. reflexivity. }
    destruct m; simpl; rewrite ?He, ?Mc; reflexivity.
Qed.

Lemma never_enabled_output_witness :
  let ms := [MDebugf "a" []; MSetMask 1; MDebugfM 1 "b" []; MDebug [VInt 7];
             MDisable; MDebugln [VBool true]; MDebug []] in
  let d := New [] "myapp " 0 in
  enabled d = false /\
  forallb (fun m => negb (is_Enable m)) ms = true /\
  calls_made (run ms) d = [CPrint [VInt 7]; CPrint []] /\
  enabled (run ms d) = false.
Proof.
  cbv zeta.
  split; [reflexivity|]. split; [reflexivity|].
  apply (never_enabled_output
           [MDebugf "a" []; MSetMask 1; MDebugfM 1 "b" []; MDebug [VInt 7];
            MDisable; MDebugln [VBool true]; MDebug []]
           (New [] "myapp " 0));
    reflexivity.
Defined.

(** ** Particular masks *)

Lemma mask_cond_zero_mask (bit : uint64) (d : DbgLogger) :
  mask d = 0 -> mask_cond bit d = false.
Proof.
  intro Hm. unfold mask_cond. rewrite Hm, Z.land_0_r.
  destruct (Z.eqb_spec bit 0) as [E|E].
  - cbn [negb]. rewrite andb_false_r. reflexivity.
  - apply andb_false_iff. right. apply Z.eqb_neq. congruence.
Qed.

(** X5: with a zero mask no masked method prints, whatever the bit and
    even when the logger is enabled; this is the state [New] followed by
    [Enable] leaves, so masked output needs a [SetMask] first. *)
Theorem zero_mask_silences_masked (d : DbgLogger) (bit : uint64)
    (format : string) (v : list value) (out : Writer) (prefix : string)
    (flag : Z) :
  noop (DebugfM bit format v) (SetMask 0 d) /\
  noop (DebugM bit format v) (SetMask 0 d) /\
  noop (DebuglnM bit format v) (SetMask 0 d) /\
  noop (DebugfM bit format v) (Enable (New out prefix flag)) /\
  noop (DebugM bit format v) (Enable (New out prefix flag)) /\
  noop (DebuglnM bit format v) (Enable (New out prefix flag)).
Proof.
  unfold noop, DebugfM, DebugM, DebuglnM, when.
  rewrite !(mask_cond_zero_mask bit (SetMask 0 d)) by reflexivity.
  rewrite !(mask_cond_zero_mask bit (Enable (New out prefix flag)))
    by reflexivity.
  repeat split.
Qed.

Lemma land_max_uint64 (bit : Z) :
  uint64_range bit -> Z.land bit max_uint64 = bit.
Proof.
  unfold uint64_range, max_uint64. intro Hr.
  replace (2 ^ 64 - 1) with (Z.ones 64) by reflexivity.
  rewrite Z.land_ones by lia. apply Z.mod_small. exact Hr.
Qed.

Lemma mask_cond_full_mask (bit : uint64) (d : DbgLogger) :
  uint64_range bit -> bit <> 0 -> mask d = max_uint64 ->
  mask_cond bit d = enabled d.
Proof.
  intros Hr Hz Hm. unfold mask_cond.
  rewrite Hm, (land_max_uint64 _ Hr), Z.eqb_refl.
  apply Z.eqb_neq in Hz. rewrite Hz.
  destruct (enabled d); reflexivity.
Qed.

(** X6: with the all-ones mask every nonzero [uint64] bit passes: [DebugfM]
    and [DebuglnM] then behave as [Debugf] and [Debugln], and [DebugM]
    prints if and only if the logger is enabled (unlike [Debug]). *)
Theorem full_mask_passes_every_bit (d : DbgLogger) (bit : uint64)
    (format : string) (v : list value) :
  uint64_range bit ->
  bit <> 0 ->
  let d' := SetMask max_uint64 d in
  DebugfM bit format v d' = Debugf format v d' /\
  DebuglnM bit format v d' = Debugln v d' /\
  (invokes (DebugM bit format v) d' (CPrint v) <-> enabled d = true) /\
  (noop (DebugM bit format v) d' <-> enabled d = false).
Proof.
  intros Hr Hz d'.
  assert (Hc : mask_cond bit d' = enabled d).
  { apply (mask_cond_full_mask bit d' Hr Hz). reflexivity. }
  unfold DebugfM, DebuglnM, DebugM, Debugf, Debugln, Print, Log.Print.
  rewrite when_Output_invokes, when_Output_noop, Hc.
  unfold when. rewrite Hc. repeat split; auto.
Qed.

Lemma full_mask_passes_every_bit_witness :
  let d' := SetMask max_uint64 (Enable (New [] "myapp " 0)) in
  uint64_range 6 /\
  6 <> 0 /\
  DebugfM 6 "x" [] d' = Debugf "x" [] d' /\
  DebuglnM 6 "x" [] d' = Debugln [] d' /\
  (invokes (DebugM 6 "x" []) d' (CPrint []) <->
   enabled (Enable (New [] "myapp " 0)) = true) /\
  (noop (DebugM 6 "x" []) d' <-> enabled (Enable (New [] "myapp " 0)) = false).
Proof.
  cbv zeta.
  split; [unfold uint64_range; lia|]. split; [discriminate|].
  apply (full_mask_passes_every_bit (Enable (New [] "myapp " 0)) 6 "x" []).
  - unfold uint64_range. lia.
  - discriminate.
Defined.

(** ** Bits and combinations of bits *)

Lemma land_lor_eq_iff (a b m : Z) :
  Z.land (Z.lor a b) m = Z.lor a b <-> Z.land a m = a /\ Z.land b m = b.
Proof.
  split.
  - intro H.
    assert (B : forall n, 0 <= n ->
      (Z.testbit a n || Z.testbit b n) && Z.testbit m n
      = Z.testbit a n || Z.testbit b n).
    { intros n Hn. rewrite <- Z.lor_spec, <- Z.land_spec, H. reflexivity. }
    split; apply Z.bits_inj'; intros n Hn; rewrite Z.land_spec;
      specialize (B n Hn);
      destruct (Z.testbit a n), (Z.testbit b n), (Z.testbit m n);
      simpl in *; congruence.
  - intros (Ha & Hb). rewrite Z.land_lor_distr_l, Ha, Hb. reflexivity.
Qed.

Lemma mask_cond_lor (b1 b2 : uint64) (d : DbgLogger) :
  b1 <> 0 -> b2 <> 0 ->
  mask_cond (Z.lor b1 b2) d = mask_cond b1 d && mask_cond b2 d.
Proof.
  intros H1 H2. apply eq_true_iff_eq.
  rewrite andb_true_iff, !mask_cond_true, land_lor_eq_iff, Z.lor_eq_0_iff.
  tauto.
Qed.

(** X7: a combination of bits passes the gate exactly when each of its
    parts does: for nonzero [b1] and [b2], a masked method called with
    [b1 | b2] prints if and only if it would print with [b1] and would
    print with [b2]. *)
Theorem combined_bits_gate (d : DbgLogger) (b1 b2 : uint64)
    (format : string) (v : list value) :
  b1 <> 0 ->
  b2 <> 0 ->
  (invokes (DebugfM (Z.lor b1 b2) format v) d (CPrintf format v) <->
   invokes (DebugfM b1 format v) d (CPrintf format v) /\
   invokes (DebugfM b2 format v) d (CPrintf format v)) /\
  (invokes (DebugM (Z.lor b1 b2) format v) d (CPrint v) <->
   invokes (DebugM b1 format v) d (CPrint v) /\
   invokes (DebugM b2 format v) d (CPrint v)) /\
  (invokes (DebuglnM (Z.lor b1 b2) format v) d (CPrintln v) <->
   invokes (DebuglnM b1 format v) d (CPrintln v) /\
   invokes (DebuglnM b2 format v) d (CPrintln v)).
Proof.
  intros H1 H2.
  unfold DebugfM, DebugM, DebuglnM, Printf, Print, Println,
    Log.Printf, Log.Print, Log.Println.
  rewrite !when_Output_invokes, (mask_cond_lor b1 b2 d H1 H2), andb_true_iff.
  tauto.
Qed.

Lemma combined_bits_gate_witness :
  let d := SetMask 7 (Enable (New [] "myapp " 0)) in
  1 <> 0 /\
  4 <> 0 /\
  (invokes (DebugfM (Z.lor 1 4) "x" []) d (CPrintf "x" []) <->
   invokes (DebugfM 1 "x" []) d (CPrintf "x" []) /\
   invokes (DebugfM 4 "x" []) d (CPrintf "x" [])).
Proof.
  cbv zeta.
  split; [discriminate|]. split; [discriminate|].
  apply (proj1 (combined_bits_gate (SetMask 7 (Enable (New [] "myapp " 0)))
                  1 4 "x" [] ltac:(discriminate) ltac:(discriminate))).
Defined.

Lemma land_pow2_eq_iff (i m : Z) :
  0 <= i -> Z.land (2 ^ i) m = 2 ^ i <-> Z.testbit m i = true.
Proof.
  intro Hi. split.
  - intro H. apply (f_equal (fun z => Z.testbit z i)) in H.
    rewrite Z.land_spec, Z.pow2_bits_true in H by exact Hi. exact H.
  - intro H. apply Z.bits_inj'. intros n Hn.
    rewrite Z.land_spec, Z.pow2_bits_eqb by exact Hi.
    destruct (Z.eqb_spec i n) as [->|]; [rewrite H|]; reflexivity.
Qed.

Lemma mask_cond_single_bit (i : Z) (d : DbgLogger) :
  0 <= i ->
  mask_cond (Z.shiftl 1 i) d = true
  <-> enabled d = true /\ Z.testbit (mask d) i = true.
Proof.
  intro Hi. rewrite mask_cond_true, Z.shiftl_1_l, land_pow2_eq_iff by exact Hi.
  assert (2 ^ i <> 0) by (apply Z.pow_nonzero; lia). tauto.
Qed.

(** X8: for a single bit [1 << i] of a [uint64] ([0 <= i < 64]) the gate
    of the masked methods is a bit test: the call prints if and only if
    the logger is enabled and bit [i] of the mask is set. *)
Theorem single_bit_gate (d : DbgLogger) (i : Z) (format : string)
    (v : list value) :
  0 <= i < 64 ->
  (invokes (DebugfM (Z.shiftl 1 i) format v) d (CPrintf format v) <->
   enabled d = true /\ Z.testbit (mask d) i = true) /\
  (invokes (DebugM (Z.shiftl 1 i) format v) d (CPrint v) <->
   enabled d = true /\ Z.testbit (mask d) i = true) /\
  (invokes (DebuglnM (Z.shiftl 1 i) format v) d (CPrintln v) <->
   enabled d = true /\ Z.testbit (mask d) i = true).
Proof.
  intros (Hi & _).
  unfold DebugfM, DebugM, DebuglnM, Printf, Print, Println,
    Log.Printf, Log.Print, Log.Println.
  rewrite !when_Output_invokes, (mask_cond_single_bit i d Hi). tauto.
Qed.

Lemma single_bit_gate_witness :
  let d := SetMask 5 (Enable (New [] "myapp " 0)) in
  0 <= 2 < 64 /\
  (invokes (DebugfM (Z.shiftl 1 2) "x" []) d (CPrintf "x" []) <->
   enabled d = true /\ Z.testbit (mask d) 2 = true).
Proof.
  cbv zeta. split; [lia|].
  apply (proj1 (single_bit_gate (SetMask 5 (Enable (New [] "myapp " 0)))
                  2 "x" [] ltac:(lia))).
Defined.

(** X9: the example of the package comment, for any two flags: once the
    logger is enabled and its mask set to the single bit [1 << i], a
    masked call with the single bit [1 << j] prints if and only if
    [i = j]. *)
Theorem single_bit_mask_selects (d : DbgLogger) (i j : Z) (format : string)
    (v : list value) :
  0 <= i < 64 ->
  0 <= j < 64 ->
  let d' := SetMask (Z.shiftl 1 i) (Enable d) in
  (invokes (DebugfM (Z.shiftl 1 j) format v) d' (CPrintf format v) <-> i = j) /\
  (invokes (DebugM (Z.shiftl 1 j) format v) d' (CPrint v) <-> i = j) /\
  (invokes (DebuglnM (Z.shiftl 1 j) format v) d' (CPrintln v) <-> i = j).
Proof.
  intros (Hi & _) (Hj & _) d'.
  unfold DebugfM, DebugM, DebuglnM, Printf, Print, Println,
    Log.Printf, Log.Print, Log.Println.
  rewrite !when_Output_invokes, (mask_cond_single_bit j d' Hj).
  subst d'. simpl. rewrite Z.shiftl_1_l, Z.pow2_bits_eqb by exact Hi.
  rewrite Z.eqb_eq. tauto.
Qed.

Lemma single_bit_mask_selects_witness :
  let d' := SetMask (Z.shiftl 1 0) (Enable (New [] "myapp " 0)) in
  0 <= 0 < 64 /\
  0 <= 1 < 64 /\
  (invokes (DebugfM (Z.shiftl 1 1) "debug" []) d' (CPrintf "debug" [])
   <-> 0 = 1).
Proof.
  cbv zeta. split; [lia|]. split; [lia|].
  apply (proj1 (single_bit_mask_selects (New [] "myapp " 0) 0 1 "debug" []
                  ltac:(lia) ltac:(lia))).
Defined.

(** ** The last setter wins *)

Lemma mask_run_no_SetMask (ms : list Method) (d : DbgLogger) :
  forallb (fun m => negb (is_SetMask m)) ms = true ->
  mask (run ms d) = mask d.
Proof.
  revert d. induction ms as [|m ms IH]; intros d H; [reflexivity|].
  simpl in H. apply andb_true_iff in H. destruct H as (Hm & H).
  change (run (m :: ms) d) with (run ms (call m d)).
  rewrite (IH _ H), mask_call. destruct m; try discriminate; reflexivity.
Qed.

Lemma enabled_run_no_toggle (ms : list Method) (d : DbgLogger) :
  forallb (fun m => negb (is_toggle m)) ms = true ->
  enabled (run ms d) = enabled d.
Proof.
  revert d. induction ms as [|m ms IH]; intros d H; [reflexivity|].
  simpl in H. apply andb_true_iff in H. destruct H as (Hm & H).
  change (run (m :: ms) d) with (run ms (call m d)).
  rewrite (IH _ H), enabled_call. destruct m; try discriminate; reflexivity.
Qed.

(** X10: the mask is what the last [SetMask] call set, whatever was
    called before it and whatever other methods (debug calls, [Enable],
    [Disable]) were called after it. *)
Theorem last_SetMask_wins (before after : list Method) (k : uint64)
    (d : DbgLogger) :
  forallb (fun m => negb (is_SetMask m)) after = true ->
  mask (run (before ++ MSetMask k :: after) d) = k.
Proof.
  intro H. rewrite run_app.
  change (run (MSetMask k :: after) (run before d))
    with (run after (SetMask k (run before d))).
  rewrite (mask_run_no_SetMask _ _ H). reflexivity.
Qed.

Lemma last_SetMask_wins_witness :
  let after := [MDebugfM 2 "a" []; MEnable; MDebug []; MDisable] in
  forallb (fun m => negb (is_SetMask m)) after = true /\
  mask (run ([MSetMask 9; MDebugln []] ++ MSetMask 2 :: after)
            (New [] "myapp " 0)) = 2.
Proof.
  cbv zeta. split; [reflexivity|].
  apply (last_SetMask_wins [MSetMask 9; MDebugln []]
           [MDebugfM 2 "a" []; MEnable; MDebug []; MDisable] 2
           (New [] "myapp " 0)).
  reflexivity.
Defined.

(** X11: [enabled] is what the last [Enable] or [Disable] call set,
    whatever was called before it and whatever debug and [SetMask] calls
    came after it; a [Debugf] or [Debugln] that follows prints if and
    only if that last switch was [Enable]. *)
Theorem last_toggle_wins (before after : list Method) (t : Toggle)
    (d : DbgLogger) (format : string) (v : list value) :
  forallb (fun m => negb (is_toggle m)) after = true ->
  let d' := run (before ++ toggle_method t :: after) d in
  enabled d' = toggle_state t /\
  (invokes (Debugf format v) d' (CPrintf format v) <-> t = TEnable) /\
  (invokes (Debugln v) d' (CPrintln v) <-> t = TEnable).
Proof.
  intros H d'.
  assert (E : enabled d' = toggle_state t).
  { subst d'. rewrite run_app.
    change (run (toggle_method t :: after) (run before d))
      with (run after (call (toggle_method t) (run before d))).
    rewrite (enabled_run_no_toggle _ _ H). apply enabled_toggle. }
  split; [exact E|].
  unfold Debugf, Debugln, Printf, Println, Log.Printf, Log.Println.
  rewrite !when_Output_invokes, E.
  destruct t; simpl; split; split; intros; congruence.
Qed.

Lemma last_toggle_wins_witness :
  let after := [MDebug []; MSetMask 3; MDebugfM 1 "a" []] in
  let d' := run ([MEnable; MDebugf "b" []] ++ toggle_method TDisable :: after)
                (New [] "myapp " 0) in
  forallb (fun m => negb (is_toggle m)) after = true /\
  enabled d' = false /\
  (invokes (Debugf "c" []) d' (CPrintf "c" []) <-> TDisable = TEnable) /\
  (invokes (Debugln []) d' (CPrintln []) <-> TDisable = TEnable).
Proof.
  cbv zeta. split; [reflexivity|].
  apply (last_toggle_wins [MEnable; MDebugf "b" []]
           [MDebug []; MSetMask 3; MDebugfM 1 "a" []] TDisable
           (New [] "myapp " 0) "c" []).
  reflexivity.
Defined.
